(** * PawStore storefront (frontend/src/App.js): a shallow embedding

    The repository is one React component, [App], whose state is held in
    [useState] cells and whose behaviour is six asynchronous operations
    ([fetchProducts], [fetchCart], [addToCart], [updateCartItem],
    [removeFromCart], [submitOrder]) plus the JSX that binds that state to
    the page.

    Modelling choices.
    - Server data is JavaScript data as [JSON.parse] builds it, extended
      with [undefined] (the result of reading an absent property).
    - JavaScript numbers are IEEE doubles.  The model keeps the
      integer-valued ones as [Z]; the arithmetic and the printing of the
      model are those of the program as long as the numbers involved stay
      below 2^53 in magnitude.
    - An [async] function is run to completion: each [await] is answered at
      once by the backend, which is any function of the requests seen so far.
      [removeFromCart] starts [fetchCart] without awaiting it; the model runs
      that call to completion as well.
    - Every observable action is appended to a log in program order: the
      requests, the [console.error] and [alert] calls, and the state setters. *)

From Stdlib Require Import String Ascii List ZArith Lia Bool DecimalString.
Import ListNotations.
Set Warnings "-register-all".
Open Scope list_scope.
Open Scope string_scope.

(** ** JavaScript data *)

Module JS.

(** The properties of an object are listed in the order in which the engine
    enumerates them, each name once. *)
Inductive value : Type :=
| VUndef
| VNull
| VBool (b : bool)
| VNum (n : Z)
| VStr (s : string)
| VArr (elems : list value)
| VObj (props : list (string * value)).

(** What a rejected promise or a [throw] carries. *)
Inductive exn : Type :=
| FetchFailed        (* fetch() rejected: no response at all   *)
| JsonParseFailed    (* response.json() rejected               *)
| TypeError.         (* property read on null/undefined, failed coercion *)

Inductive Result (A : Type) : Type :=
| Normal (a : A)
| Thrown (e : exn).
Arguments Normal {A} a.
Arguments Thrown {A} e.

Fixpoint assoc (k : string) (ps : list (string * value)) : option value :=
  match ps with
  | [] => None
  | (k', v) :: rest => if String.eqb k k' then Some v else assoc k rest
  end.

Definition has_own (k : string) (ps : list (string * value)) : bool :=
  match assoc k ps with Some _ => true | None => false end.

(** [v.name], for the names the program reads through it on server data:
    [products], [cart], [order_id], [items], [total], [id], [name],
    [features] and the like.  None of them
    is built in or inherited from a prototype, so on anything but an object
    that owns the property the read gives [undefined]; on null and undefined
    it throws. *)
Definition get_prop (v : value) (name : string) : Result value :=
  match v with
  | VUndef | VNull => Thrown TypeError
  | VObj ps => Normal (match assoc name ps with Some x => x | None => VUndef end)
  | VBool _ | VNum _ | VStr _ | VArr _ => Normal VUndef
  end.

(** Truthiness, as [&&] and [||] test it. *)
Definition truthy (v : value) : bool :=
  match v with
  | VUndef | VNull => false
  | VBool b => b
  | VNum n => negb (Z.eqb n 0)
  | VStr s => negb (String.eqb s EmptyString)
  | VArr _ | VObj _ => true
  end.

Definition number_to_string (n : Z) : string :=
  NilEmpty.string_of_int (Z.to_int n).

(** ToString, as a template literal applies it.  A plain object prints as
    [[object Object]] unless it carries an own (hence not callable)
    [toString], in which case the conversion throws; an array prints its
    elements joined by commas, null and undefined elements as nothing. *)
Fixpoint to_string (v : value) : Result string :=
  match v with
  | VUndef => Normal "undefined"
  | VNull => Normal "null"
  | VBool true => Normal "true"
  | VBool false => Normal "false"
  | VNum n => Normal (number_to_string n)
  | VStr s => Normal s
  | VArr l =>
      (fix join (l : list value) : Result string :=
         match l with
         | [] => Normal EmptyString
         | x :: rest =>
             let elt := match x with
                        | VUndef | VNull => Normal EmptyString
                        | _ => to_string x
                        end in
             match elt with
             | Thrown e => Thrown e
             | Normal sx =>
                 match rest with
                 | [] => Normal sx
                 | _ :: _ =>
                     match join rest with
                     | Thrown e => Thrown e
                     | Normal sr => Normal (sx ++ "," ++ sr)
                     end
                 end
             end
         end) l
  | VObj ps => if has_own "toString" ps then Thrown TypeError
               else Normal "[object Object]"
  end.

(** *** JSON.stringify *)

Definition hex_digit (n : nat) : ascii :=
  match n with
  | 0 => "0" | 1 => "1" | 2 => "2" | 3 => "3" | 4 => "4" | 5 => "5"
  | 6 => "6" | 7 => "7" | 8 => "8" | 9 => "9" | 10 => "a" | 11 => "b"
  | 12 => "c" | 13 => "d" | 14 => "e" | _ => "f"
  end%char.

Definition json_escape_char (c : ascii) : string :=
  let n := nat_of_ascii c in
  if Nat.eqb n 34 then "\" ++ String c EmptyString
  else if Nat.eqb n 92 then "\\"
  else if Nat.eqb n 8 then "\b"
  else if Nat.eqb n 9 then "\t"
  else if Nat.eqb n 10 then "\n"
  else if Nat.eqb n 12 then "\f"
  else if Nat.eqb n 13 then "\r"
  else if Nat.ltb n 32 then
    "\u00" ++ String (hex_digit (n / 16)) (String (hex_digit (n mod 16)) EmptyString)
  else String c EmptyString.

Fixpoint json_escape (s : string) : string :=
  match s with
  | EmptyString => EmptyString
  | String c rest => json_escape_char c ++ json_escape rest
  end.

Definition json_quote (s : string) : string :=
  String (ascii_of_nat 34) (json_escape s ++ String (ascii_of_nat 34) EmptyString).

Fixpoint sep_by (sep : string) (l : list string) : string :=
  match l with
  | [] => EmptyString
  | [x] => x
  | x :: rest => x ++ sep ++ sep_by sep rest
  end.

(** [JSON.stringify v]: [None] is JavaScript's [undefined].  A property
    whose value is [undefined] is left out of an object; an [undefined]
    array element is written [null]. *)
Fixpoint JSON_stringify (v : value) : option string :=
  match v with
  | VUndef => None
  | VNull => Some "null"
  | VBool true => Some "true"
  | VBool false => Some "false"
  | VNum n => Some (number_to_string n)
  | VStr s => Some (json_quote s)
  | VArr l =>
      Some ("[" ++ sep_by ","
              ((fix elems (l : list value) : list string :=
                  match l with
                  | [] => []
                  | x :: rest =>
                      match JSON_stringify x with
                      | Some sx => sx
                      | None => "null"
                      end :: elems rest
                  end) l) ++ "]")
  | VObj ps =>
      Some ("{" ++ sep_by ","
              ((fix members (ps : list (string * value)) : list string :=
                  match ps with
                  | [] => []
                  | (k, x) :: rest =>
                      match JSON_stringify x with
                      | Some sx => (json_quote k ++ ":" ++ sx) :: members rest
                      | None => members rest
                      end
                  end) ps) ++ "}")
  end.

End JS.
Import JS.


(** ** HTTP as the component sees it *)

Module Http.

Record Request : Type := mkRequest {
  method : string;
  url : string;
  headers : list (string * string);
  body : option string
}.

(** [fetch(url)] with no options. *)
Definition GET (u : string) : Request := mkRequest "GET" u [] None.

(** [fetch(url, { method: m })]. *)
Definition bare (m u : string) : Request := mkRequest m u [] None.

(** A response object; the program only ever calls [json()] on it, which
    resolves to the parsed body or rejects when the body is not JSON.  The
    status code is never inspected by the program. *)
Record Response : Type := mkResponse { parsed_body : option value }.

Inductive Reply : Type :=
| NoResponse                 (* fetch() rejects *)
| Responds (r : Response).   (* fetch() resolves, whatever the status *)

(** The backend is not part of the repository: any function from the
    requests already made (oldest first) and the current one to a reply. *)
Definition Backend : Type := list Request -> Request -> Reply.

End Http.
Import Http.

(** ** Component state (App.js lines 7-19) *)

Record CustomerInfo : Type := mkCustomerInfo {
  name : string;
  email : string;
  phone : string;
  address : string
}.

Record AppState : Type := mkAppState {
  products : value;
  cart : value;
  selectedProduct : value;
  showCart : bool;
  showCheckout : bool;
  sessionId : string;
  loading : bool;
  customerInfo : CustomerInfo
}.

(** The object literal [{ items: [], total: 0 }]. *)
Definition empty_cart : value :=
  VObj [("items", VArr []); ("total", VNum 0)].

Definition empty_customerInfo : CustomerInfo :=
  mkCustomerInfo EmptyString EmptyString EmptyString EmptyString.

(** [customerInfo] as the JavaScript object it is. *)
Definition customerInfo_value (c : CustomerInfo) : value :=
  VObj [("name", VStr (name c)); ("email", VStr (email c));
        ("phone", VStr (phone c)); ("address", VStr (address c))].

(** Lines 87-92: the object literal
    [{ session_id: ..., items: ..., total: ..., customer_info: ... }]. *)
Definition order_record (sid : string) (its tot : value) (ci : CustomerInfo)
    : value :=
  VObj [("session_id", VStr sid); ("items", its); ("total", tot);
        ("customer_info", customerInfo_value ci)].

(** [s.substring(n)]: the string without its first [n] characters. *)
Fixpoint substring_from (n : nat) (s : string) : string :=
  match n, s with
  | O, _ => s
  | S _, EmptyString => EmptyString
  | S n', String _ rest => substring_from n' rest
  end.

(** The state after the [useState] initialisers have run.  [random36] stands
    for [Math.random().toString(36)], which the initialiser of [sessionId]
    evaluates once, on the first render. *)
Definition initial_state (random36 : string) : AppState :=
  {| products := VArr [];
     cart := empty_cart;
     selectedProduct := VNull;
     showCart := false;
     showCheckout := false;
     sessionId := substring_from 7 random36;
     loading := true;
     customerInfo := empty_customerInfo |}.

(** ** Observable actions *)

Inductive Event : Type :=
| EFetch (r : Request)
| EConsoleError (msg : string) (error : exn)
| EAlert (msg : string)
| EPreventDefault
| ESetProducts (v : value)
| ESetCart (v : value)
| ESetSelectedProduct (v : value)
| ESetShowCart (b : bool)
| ESetShowCheckout (b : bool)
| ESetLoading (b : bool)
| ESetCustomerInfo (c : CustomerInfo).

Record World : Type := mkWorld {
  app : AppState;
  log : list Event      (* oldest first *)
}.

Fixpoint requests_of (l : list Event) : list Request :=
  match l with
  | [] => []
  | EFetch r :: rest => r :: requests_of rest
  | _ :: rest => requests_of rest
  end.

(** ** A state-and-exception monad for the bodies of the handlers *)

Definition M (A : Type) : Type := World -> Result A * World.

Definition ret {A} (a : A) : M A := fun w => (Normal a, w).

Definition bind {A B} (m : M A) (k : A -> M B) : M B :=
  fun w => match m w with
           | (Normal a, w') => k a w'
           | (Thrown e, w') => (Thrown e, w')
           end.

Declare Scope js_scope.
Delimit Scope js_scope with js.
Notation "x <- m ;; k" := (bind m (fun x => k))
  (at level 100, m at next level, right associativity) : js_scope.
Notation "m ;; k" := (bind m (fun _ => k))
  (at level 100, right associativity) : js_scope.
Open Scope js_scope.

(** An expression that may throw. *)
Definition eval {A} (r : Result A) : M A := fun w => (r, w).

Definition emit (e : Event) : M unit :=
  fun w => (Normal tt, {| app := app w; log := (log w ++ [e])%list |}).

Definition update (f : AppState -> AppState) : M unit :=
  fun w => (Normal tt, {| app := f (app w); log := log w |}).

Definition read {A} (f : AppState -> A) : M A :=
  fun w => (Normal (f (app w)), w).

(** [try { body } catch (error) { handler }] *)
Definition try_catch (body : M unit) (handler : exn -> M unit) : M unit :=
  fun w => match body w with
           | (Normal a, w') => (Normal a, w')
           | (Thrown e, w') => handler e w'
           end.

(** [try { body } catch (error) { handler } finally { fin }] *)
Definition try_catch_finally (body : M unit) (handler : exn -> M unit)
    (fin : M unit) : M unit :=
  fun w => match try_catch body handler w with
           | (r, w1) =>
               match fin w1 with
               | (Normal _, w2) => (r, w2)
               | (Thrown e, w2) => (Thrown e, w2)
               end
           end.

(** Calling an [async] function without [await]: the caller goes on, and a
    rejection of the returned promise is not delivered to it.  The model
    runs the callee to completion first. *)
Definition spawn (m : M unit) : M unit :=
  fun w => match m w with (_, w') => (Normal tt, w') end.

Definition console_error (msg : string) (error : exn) : M unit :=
  emit (EConsoleError msg error).

Definition alert (msg : string) : M unit := emit (EAlert msg).

(** The state setters returned by [useState]. *)
Definition setProducts (v : value) : M unit :=
  emit (ESetProducts v) ;;
  update (fun s => mkAppState v (cart s) (selectedProduct s) (showCart s)
            (showCheckout s) (sessionId s) (loading s) (customerInfo s)).

Definition setCart (v : value) : M unit :=
  emit (ESetCart v) ;;
  update (fun s => mkAppState (products s) v (selectedProduct s) (showCart s)
            (showCheckout s) (sessionId s) (loading s) (customerInfo s)).

Definition setSelectedProduct (v : value) : M unit :=
  emit (ESetSelectedProduct v) ;;
  update (fun s => mkAppState (products s) (cart s) v (showCart s)
            (showCheckout s) (sessionId s) (loading s) (customerInfo s)).

Definition setShowCart (b : bool) : M unit :=
  emit (ESetShowCart b) ;;
  update (fun s => mkAppState (products s) (cart s) (selectedProduct s) b
            (showCheckout s) (sessionId s) (loading s) (customerInfo s)).

Definition setShowCheckout (b : bool) : M unit :=
  emit (ESetShowCheckout b) ;;
  update (fun s => mkAppState (products s) (cart s) (selectedProduct s)
            (showCart s) b (sessionId s) (loading s) (customerInfo s)).

Definition setLoading (b : bool) : M unit :=
  emit (ESetLoading b) ;;
  update (fun s => mkAppState (products s) (cart s) (selectedProduct s)
            (showCart s) (showCheckout s) (sessionId s) b (customerInfo s)).

Definition setCustomerInfo (c : CustomerInfo) : M unit :=
  emit (ESetCustomerInfo c) ;;
  update (fun s => mkAppState (products s) (cart s) (selectedProduct s)
            (showCart s) (showCheckout s) (sessionId s) (loading s) c).

(** ** The six operations (App.js lines 4, 21-112) *)

Section Operations.

(** [process.env.REACT_APP_BACKEND_URL], fixed at build time. *)
Variable REACT_APP_BACKEND_URL : option string.

Variable backend : Backend.

(** Line 4: [process.env.REACT_APP_BACKEND_URL || 'http://localhost:8001']. *)
Definition API_BASE : string :=
  match REACT_APP_BACKEND_URL with
  | Some u => if String.eqb u EmptyString then "http://localhost:8001" else u
  | None => "http://localhost:8001"
  end.

(** [await fetch(...)]: the request leaves, the backend answers. *)
Definition fetch (r : Request) : M Response :=
  fun w =>
    let w' := {| app := app w; log := (log w ++ [EFetch r])%list |} in
    match backend (requests_of (log w)) r with
    | NoResponse => (Thrown FetchFailed, w')
    | Responds resp => (Normal resp, w')
    end.

(** [await response.json()] *)
Definition json (resp : Response) : M value :=
  match parsed_body resp with
  | Some v => ret v
  | None => eval (Thrown JsonParseFailed)
  end.

(** Lines 26-36. *)
Definition fetchProducts : M unit :=
  try_catch_finally
    (response <- fetch (GET (API_BASE ++ "/api/products")) ;;
     data <- json response ;;
     ps <- eval (get_prop data "products") ;;
     setProducts ps)
    (fun error => console_error "Error fetching products:" error)
    (setLoading false).

Definition cart_url (sid : string) : string :=
  API_BASE ++ "/api/cart/" ++ sid.

(** Lines 38-46. *)
Definition fetchCart : M unit :=
  try_catch
    (sid <- read sessionId ;;
     response <- fetch (GET (cart_url sid)) ;;
     data <- json response ;;
     setCart data)
    (fun error => console_error "Error fetching cart:" error).

(** A parameter with default value 1: the default applies when the argument
    is [undefined]. *)
Definition default_one (quantity : value) : value :=
  match quantity with VUndef => VNum 1 | q => q end.

(** Lines 48-59. *)
Definition addToCart (productId quantity : value) : M unit :=
  let quantity := default_one quantity in
  try_catch
    (sid <- read sessionId ;;
     pid <- eval (to_string productId) ;;
     q <- eval (to_string quantity) ;;
     response <- fetch (bare "POST"
        (cart_url sid ++ "/add?product_id=" ++ pid ++ "&quantity=" ++ q)) ;;
     data <- json response ;;
     c <- eval (get_prop data "cart") ;;
     setCart c ;;
     alert "Item added to cart!")
    (fun error => console_error "Error adding to cart:" error).

(** Lines 61-71. *)
Definition updateCartItem (productId quantity : value) : M unit :=
  try_catch
    (sid <- read sessionId ;;
     pid <- eval (to_string productId) ;;
     q <- eval (to_string quantity) ;;
     response <- fetch (bare "PUT"
        (cart_url sid ++ "/update?product_id=" ++ pid ++ "&quantity=" ++ q)) ;;
     data <- json response ;;
     c <- eval (get_prop data "cart") ;;
     setCart c)
    (fun error => console_error "Error updating cart:" error).

(** Lines 73-82.  The response of the DELETE is dropped; the cart is read
    again with [fetchCart], which handles its own failures. *)
Definition removeFromCart (productId : value) : M unit :=
  try_catch
    (sid <- read sessionId ;;
     pid <- eval (to_string productId) ;;
     _ <- fetch (bare "DELETE" (cart_url sid ++ "/remove/" ++ pid)) ;;
     spawn fetchCart)
    (fun error => console_error "Error removing from cart:" error).

(** Lines 87-92: [orderData], built from [sessionId], [cart.items],
    [cart.total] and [customerInfo]; reading a property of a cart that is
    null or undefined throws. *)
Definition orderData (s : AppState) : Result value :=
  match get_prop (cart s) "items" with
  | Thrown e => Thrown e
  | Normal its =>
      match get_prop (cart s) "total" with
      | Thrown e => Thrown e
      | Normal tot =>
          Normal (order_record (sessionId s) its tot (customerInfo s))
      end
  end.

Definition order_request (od : value) : Request :=
  {| method := "POST";
     url := API_BASE ++ "/api/orders";
     headers := [("Content-Type", "application/json")];
     body := JSON_stringify od |}.

(** Lines 84-112. *)
Definition submitOrder : M unit :=
  emit EPreventDefault ;;
  try_catch
    (s <- read (fun s => s) ;;
     od <- eval (orderData s) ;;
     response <- fetch (order_request od) ;;
     data <- json response ;;
     oid <- eval (get_prop data "order_id") ;;
     oid_text <- eval (to_string oid) ;;
     alert ("Order submitted successfully! Order ID: " ++ oid_text) ;;
     setShowCheckout false ;;
     setShowCart false ;;
     setCart empty_cart ;;
     setCustomerInfo empty_customerInfo)
    (fun error =>
       console_error "Error submitting order:" error ;;
       alert "Error submitting order. Please try again.").

(** Lines 21-24: the effect run once after the first render. *)
Definition on_mount : M unit :=
  spawn fetchProducts ;; spawn fetchCart.

End Operations.

(** ** What is rendered (App.js lines 114-530) *)

(** The spec's Cart record: [items], a list of [{product_id, quantity,
    price}], and [total].  The fragments of the JSX that compute with the
    cart are modelled on carts of this shape, with numeric quantities and
    total. *)
Record CartItem : Type := mkCartItem {
  product_id : value;
  quantity : Z;
  price : value
}.

Record Cart : Type := mkCart {
  items : list CartItem;
  total : Z
}.





(** Line 143: [{cart.items.length}]. *)
Definition cart_count (c : Cart) : Z := Z.of_nat (List.length (items c)).

(** Line 146: [cart.items.reduce((sum, item) => sum + item.quantity, 0)]. *)
Definition quantity_sum (c : Cart) : Z :=
  fold_left (fun sum item => (sum + quantity item)%Z) (items c) 0%Z.

(** Lines 144-148: the red badge, present when [cart.items.length > 0]. *)
Definition cart_badge (c : Cart) : option Z :=
  if (cart_count c >? 0)%Z then Some (quantity_sum c) else None.







(** ** Event handlers bound in the JSX *)

Inductive Field : Type := FName | FEmail | FPhone | FAddress.

(** Lines 475, 486, 497, 507: [{...customerInfo, field: e.target.value}]. *)
Definition with_field (c : CustomerInfo) (f : Field) (v : string)
    : CustomerInfo :=
  match f with
  | FName => mkCustomerInfo v (email c) (phone c) (address c)
  | FEmail => mkCustomerInfo (name c) v (phone c) (address c)
  | FPhone => mkCustomerInfo (name c) (email c) v (address c)
  | FAddress => mkCustomerInfo (name c) (email c) (phone c) v
  end.

Inductive UserEvent : Type :=
| Mount                               (* lines 21-24 *)
| ClickCart                           (* line 140 *)
| ClickViewDetails (product : value)  (* line 229 *)
| ClickAddToCart (product : value)    (* line 235 *)
| ProductClose                        (* line 289 *)
| ProductAddToCart                    (* lines 343-346 *)
| CartClose                           (* lines 366, 377, 433 *)
| CartMinus (item : CartItem)         (* line 403 *)
| CartPlus (item : CartItem)          (* line 410 *)
| CartRemove (item : CartItem)        (* line 416 *)
| CartCheckout                        (* line 439 *)
| CheckoutClose                       (* line 461 *)
| CheckoutInput (f : Field) (text : string)  (* lines 475-507 *)
| CheckoutSubmit.                     (* line 468 *)




Section Handlers.

Variable REACT_APP_BACKEND_URL : option string.
Variable backend : Backend.

Let addToCart' := addToCart REACT_APP_BACKEND_URL backend.
Let updateCartItem' := updateCartItem REACT_APP_BACKEND_URL backend.
Let removeFromCart' := removeFromCart REACT_APP_BACKEND_URL backend.

(** Line 403: [() => updateCartItem(item.product_id, item.quantity - 1)]. *)
Definition on_minus (item : CartItem) : M unit :=
  spawn (updateCartItem' (product_id item) (VNum (quantity item - 1))).

(** Line 410: [() => updateCartItem(item.product_id, item.quantity + 1)]. *)
Definition on_plus (item : CartItem) : M unit :=
  spawn (updateCartItem' (product_id item) (VNum (quantity item + 1))).

(** Line 416: [() => removeFromCart(item.product_id)]. *)
Definition on_remove (item : CartItem) : M unit :=
  spawn (removeFromCart' (product_id item)).

Definition handle (ev : UserEvent) : M unit :=
  match ev with
  | Mount => on_mount REACT_APP_BACKEND_URL backend
  | ClickCart => setShowCart true
  | ClickViewDetails p => setSelectedProduct p
  | ClickAddToCart p =>
      id <- eval (get_prop p "id") ;;
      spawn (addToCart' id VUndef)
  | ProductClose => setSelectedProduct VNull
  | ProductAddToCart =>
      sel <- read selectedProduct ;;
      id <- eval (get_prop sel "id") ;;
      spawn (addToCart' id VUndef) ;;
      setSelectedProduct VNull
  | CartClose => setShowCart false
  | CartMinus item => on_minus item
  | CartPlus item => on_plus item
  | CartRemove item => on_remove item
  | CartCheckout => setShowCheckout true
  | CheckoutClose => setShowCheckout false
  | CheckoutInput f text =>
      c <- read customerInfo ;;
      setCustomerInfo (with_field c f text)
  | CheckoutSubmit => spawn (submitOrder REACT_APP_BACKEND_URL backend)
  end.


End Handlers.

(** The six operations, by name. *)
Inductive Operation : Type :=
| OpFetchProducts
| OpFetchCart
| OpAddToCart (productId quantity : value)
| OpUpdateCartItem (productId quantity : value)
| OpRemoveFromCart (productId : value)
| OpSubmitOrder.

Definition run (env : option string) (backend : Backend) (op : Operation)
    : M unit :=
  match op with
  | OpFetchProducts => fetchProducts env backend
  | OpFetchCart => fetchCart env backend
  | OpAddToCart p q => addToCart env backend p q
  | OpUpdateCartItem p q => updateCartItem env backend p q
  | OpRemoveFromCart p => removeFromCart env backend p
  | OpSubmitOrder => submitOrder env backend
  end.

(** ** Vocabulary of the statements *)

Definition with_cart (s : AppState) (c : value) : AppState :=
  mkAppState (products s) c (selectedProduct s) (showCart s)
    (showCheckout s) (sessionId s) (loading s) (customerInfo s).

(** ** The endpoints of the backend *)

Inductive Endpoint : Type :=
| ListProducts     (* GET    /api/products                      *)
| GetCart          (* GET    /api/cart/:session                 *)
| AddCartItem      (* POST   /api/cart/:session/add             *)
| UpdateCartItem   (* PUT    /api/cart/:session/update          *)
| RemoveCartItem   (* DELETE /api/cart/:session/remove/:product *)
| CreateOrder.     (* POST   /api/orders                        *)

Definition all_endpoints : list Endpoint :=
  [ListProducts; GetCart; AddCartItem; UpdateCartItem; RemoveCartItem;
   CreateOrder].

Definition own_endpoint (op : Operation) : Endpoint :=
  match op with
  | OpFetchProducts => ListProducts
  | OpFetchCart => GetCart
  | OpAddToCart _ _ => AddCartItem
  | OpUpdateCartItem _ _ => UpdateCartItem
  | OpRemoveFromCart _ => RemoveCartItem
  | OpSubmitOrder => CreateOrder
  end.

(** [r] is a call of endpoint [ep] made for session [sid]. *)
Definition calls (env : option string) (sid : string) (ep : Endpoint)
    (r : Request) : Prop :=
  match ep with
  | ListProducts => r = GET (API_BASE env ++ "/api/products")
  | GetCart => r = GET (cart_url env sid)
  | AddCartItem =>
      exists pid q, r = bare "POST"
        (cart_url env sid ++ "/add?product_id=" ++ pid ++ "&quantity=" ++ q)
  | UpdateCartItem =>
      exists pid q, r = bare "PUT"
        (cart_url env sid ++ "/update?product_id=" ++ pid ++ "&quantity=" ++ q)
  | RemoveCartItem =>
      exists pid, r = bare "DELETE" (cart_url env sid ++ "/remove/" ++ pid)
  | CreateOrder =>
      exists its tot ci, r = order_request env (order_record sid its tot ci)
  end.

(** The requests one run of an operation may add to the log. *)
Definition request_shape (env : option string) (sid : string)
    (op : Operation) (reqs : list Request) : Prop :=
  match op with
  | OpRemoveFromCart _ =>
      reqs = [] \/
      exists d, calls env sid RemoveCartItem d /\
                (reqs = [d] \/ reqs = [d; GET (cart_url env sid)])
  | _ =>
      reqs = [] \/ exists r, reqs = [r] /\ calls env sid (own_endpoint op) r
  end.

(** The exception an operation that reads the body sees, if any:
    [fetch] rejected, or [response.json()] rejected. *)
Definition failure (r : Reply) : option exn :=
  match r with
  | NoResponse => Some FetchFailed
  | Responds {| parsed_body := None |} => Some JsonParseFailed
  | Responds {| parsed_body := Some _ |} => None
  end.

Definition with_loading (s : AppState) (b : bool) : AppState :=
  mkAppState (products s) (cart s) (selectedProduct s) (showCart s)
    (showCheckout s) (sessionId s) b (customerInfo s).

(** The success path of [submitOrder]. *)
Definition cleared (s : AppState) : AppState :=
  mkAppState (products s) empty_cart (selectedProduct s) false false
    (sessionId s) (loading s) empty_customerInfo.




(** Handling a sequence of events, and what it takes for each of them to be
    possible when its turn comes. *)
Fixpoint play (env : option string) (backend : Backend)
    (evs : list UserEvent) (w : World) : World :=
  match evs with
  | [] => w
  | ev :: rest => play env backend rest (snd (handle env backend ev w))
  end.





(** ** Concrete worlds used to exercise the statements *)

Definition world0 (s : AppState) : World := {| app := s; log := [] |}.

Definition sample_item : value :=
  VObj [("product_id", VStr "p1"); ("quantity", VNum 2); ("price", VNum 10)].

Definition sample_cart : value :=
  VObj [("items", VArr [sample_item]); ("total", VNum 20)].

Definition sample_product : value :=
  VObj [("id", VStr "p1"); ("name", VStr "Brush");
        ("description", VStr "A grooming brush"); ("price", VNum 10);
        ("rating", VNum 5); ("reviews_count", VNum 12);
        ("image_url", VStr "/brush.png");
        ("images", VArr [VStr "/brush.png"]);
        ("features", VArr [VStr "Soft"; VStr "Washable"])].

(** A state with the cart and the checkout form open. *)
Definition sample_state : AppState :=
  {| products := VArr [sample_product];
     cart := sample_cart;
     selectedProduct := VNull;
     showCart := true;
     showCheckout := true;
     sessionId := "k3x9q";
     loading := false;
     customerInfo := mkCustomerInfo "Ann" "ann@example.org" "555" "1 Road" |}.

(** A backend that gives the same reply to every request. *)
Definition always (r : Reply) : Backend := fun _ _ => r.

Definition replies (v : value) : Reply := Responds (mkResponse (Some v)).

Definition garbled : Reply := Responds (mkResponse None).

(** A backend that answers the first request with the product list and
    every later one with the cart. *)
Definition shop : Backend :=
  fun earlier _ =>
    match earlier with
    | [] => replies (VObj [("products", VArr [sample_product])])
    | _ :: _ => replies sample_cart
    end.



(** ** More of the page: product cards, product modal, cart lines *)

(** What React puts on the page for a value used as a child of an element:
    nothing for undefined, null and booleans, the text of a number or a
    string, the children of an array one after the other.  An object is
    refused ([None]: rendering throws). *)
Fixpoint render_child (v : value) : option string :=
  match v with
  | VUndef | VNull | VBool _ => Some EmptyString
  | VNum n => Some (number_to_string n)
  | VStr s => Some s
  | VArr l =>
      (fix all (l : list value) : option string :=
         match l with
         | [] => Some EmptyString
         | x :: rest =>
             match render_child x, all rest with
             | Some a, Some b => Some (a ++ b)
             | _, _ => None
             end
         end) l
  | VObj _ => None
  end.

Inductive Slot : Type :=
| NoOutput
| BareText (text : string)
| DiscountBadge (text : string).

(** Lines 191-195:
    [{product.discount_percentage && (<div>-{product.discount_percentage}%</div>)}].
    When the discount is falsy the expression is the discount itself, and
    React renders that value. *)
Definition discount_slot (d : value) : option Slot :=
  match render_child d with
  | None => None
  | Some t =>
      if truthy d then Some (DiscountBadge ("-" ++ t ++ "%"))
      else if String.eqb t EmptyString then Some NoOutput
      else Some (BareText t)
  end.

(** [product.features] as the list the JSX maps over: [slice] and [map] are
    array methods, so anything but an array throws. *)
Definition features_of (product : value) : Result (list value) :=
  match get_prop product "features" with
  | Normal (VArr l) => Normal l
  | Normal _ => Thrown TypeError
  | Thrown e => Thrown e
  end.

(** [l.map((x, index) => ...)] with [key={index}]: each element with its
    index. *)
Fixpoint indexed (i : nat) (l : list value) : list (nat * value) :=
  match l with
  | [] => []
  | x :: rest => (i, x) :: indexed (S i) rest
  end.

(** Line 208: [product.features.slice(0, 3).map((feature, index) => ...)]. *)
Definition card_features (product : value) : Result (list (nat * value)) :=
  match features_of product with
  | Normal l => Normal (indexed 0 (firstn 3 l))
  | Thrown e => Thrown e
  end.

(** Line 321: [selectedProduct.features.map((feature, index) => ...)]. *)
Definition modal_features (product : value) : Result (list (nat * value)) :=
  match features_of product with
  | Normal l => Normal (indexed 0 l)
  | Thrown e => Thrown e
  end.

(** [a === b] for two values that come from different responses: primitives
    are compared by type and value; two arrays or objects are then never the
    same object. *)
Definition strict_eq (a b : value) : bool :=
  match a, b with
  | VUndef, VUndef => true
  | VNull, VNull => true
  | VBool x, VBool y => Bool.eqb x y
  | VNum x, VNum y => Z.eqb x y
  | VStr x, VStr y => String.eqb x y
  | _, _ => false
  end.

(** Line 387: [products.find(p => p.id === item.product_id)]; [None] is the
    [undefined] that [find] returns when nothing matches. *)
Fixpoint find_product (ps : list value) (pid : value)
    : Result (option value) :=
  match ps with
  | [] => Normal None
  | p :: rest =>
      match get_prop p "id" with
      | Thrown e => Thrown e
      | Normal i =>
          if strict_eq i pid then Normal (Some p) else find_product rest pid
      end
  end.

(** [q] is a product whose [id] can be read and differs from [pid]. *)
Definition no_match (pid q : value) : Prop :=
  exists j, get_prop q "id" = Normal j /\ strict_eq j pid = false.

(** Lines 392-397: [product?.name], [product?.image_url]. *)
Definition optional_prop (product : option value) (k : string)
    : Result value :=
  match product with
  | None => Normal VUndef
  | Some p => get_prop p k
  end.

(** Lines 386-399: the name shown on the cart line of [item]. *)
Definition line_name (ps : list value) (item : CartItem) : Result value :=
  match find_product ps (product_id item) with
  | Thrown e => Thrown e
  | Normal found => optional_prop found "name"
  end.

(** Lines 474, 485, 496, 506: what each input of the checkout form shows,
    [value={customerInfo.name}] and so on. *)
Definition field_value (c : CustomerInfo) (f : Field) : string :=
  match f with
  | FName => name c
  | FEmail => email c
  | FPhone => phone c
  | FAddress => address c
  end.

Definition field_eqb (f g : Field) : bool :=
  match f, g with
  | FName, FName | FEmail, FEmail | FPhone, FPhone | FAddress, FAddress => true
  | _, _ => false
  end.

(** The events whose handlers only call a state setter. *)
Definition ui_only (ev : UserEvent) : bool :=
  match ev with
  | ClickCart | ClickViewDetails _ | ProductClose | CartClose
  | CartCheckout | CheckoutClose | CheckoutInput _ _ => true
  | _ => false
  end.



(** An object that cannot be put into a template literal. *)
Definition unprintable : value := VObj [("toString", VNull)].

(** ** Proof tools *)

#[local] Arguments String.append : simpl never.

Ltac unfold_ops :=
  unfold run, on_mount, removeFromCart, fetchProducts, fetchCart, addToCart,
    updateCartItem, submitOrder, try_catch_finally, try_catch,
    spawn, setProducts, setCart, setSelectedProduct, setShowCart,
    setShowCheckout, setLoading, setCustomerInfo, console_error, alert,
    fetch, json, bind, read, eval, emit, update, ret in *.

Ltac norm_log := simpl; repeat rewrite <- app_assoc; simpl.

(** Case analysis on everything an operation branches on. *)
Ltac crunch :=
  repeat (simpl;
    match goal with
    | |- context [match to_string ?v with _ => _ end] =>
        destruct (to_string v)
    | |- context [match get_prop ?v ?k with _ => _ end] =>
        destruct (get_prop v k)
    | |- context [match ?b ?h ?r with NoResponse => _ | Responds _ => _ end] =>
        destruct (b h r) as [|[[?|]]]
    end); simpl.

Ltac failure_cases H :=
  match type of H with
  | failure ?r = Some _ =>
      destruct r as [|[[?|]]]; simpl in H; try discriminate H;
      injection H as <-
  end.

(** * Properties *)

(** ** Tools *)

Lemma requests_of_app (l1 l2 : list Event) :
  requests_of (l1 ++ l2) = (requests_of l1 ++ requests_of l2)%list.
Proof.
  induction l1 as [|e l1 IH]; simpl; [reflexivity|].
  destruct e; simpl; rewrite IH; reflexivity.
Qed.

Lemma string_app_inv_head (p a b : string) : p ++ a = p ++ b -> a = b.
Proof.
  induction p as [|c p IH]; intros H; [exact H|].
  change (String c (p ++ a) = String c (p ++ b)) in H.
  injection H as H. auto.
Qed.

Section RoundTrips.

Variable env : option string.
Variable backend : Backend.

Lemma addToCart_round_trip (w : World) (productId quantity : value)
    (pid q : string) (data c : value) :
  to_string productId = Normal pid ->
  to_string (default_one quantity) = Normal q ->
  let req := bare "POST" (cart_url env (sessionId (app w))
               ++ "/add?product_id=" ++ pid ++ "&quantity=" ++ q) in
  backend (requests_of (log w)) req = Responds (mkResponse (Some data)) ->
  get_prop data "cart" = Normal c ->
  addToCart env backend productId quantity w =
    (Normal tt,
     {| app := with_cart (app w) c;
        log := (log w ++ [EFetch req; ESetCart c;
                          EAlert "Item added to cart!"])%list |}).
Proof.
  intros Hp Hq req Hr Hc. unfold_ops. rewrite Hp, Hq. simpl.
  fold req. rewrite Hr. simpl. rewrite Hc. simpl. norm_log. reflexivity.
Qed.

Lemma updateCartItem_round_trip (w : World) (productId quantity : value)
    (pid q : string) (data c : value) :
  to_string productId = Normal pid ->
  to_string quantity = Normal q ->
  let req := bare "PUT" (cart_url env (sessionId (app w))
               ++ "/update?product_id=" ++ pid ++ "&quantity=" ++ q) in
  backend (requests_of (log w)) req = Responds (mkResponse (Some data)) ->
  get_prop data "cart" = Normal c ->
  updateCartItem env backend productId quantity w =
    (Normal tt,
     {| app := with_cart (app w) c;
        log := (log w ++ [EFetch req; ESetCart c])%list |}).
Proof.
  intros Hp Hq req Hr Hc. unfold_ops. rewrite Hp, Hq. simpl.
  fold req. rewrite Hr. simpl. rewrite Hc. simpl. norm_log. reflexivity.
Qed.

Lemma removeFromCart_round_trip (w : World) (productId : value)
    (pid : string) (resp : Response) (data : value) :
  to_string productId = Normal pid ->
  let del := bare "DELETE" (cart_url env (sessionId (app w))
               ++ "/remove/" ++ pid) in
  let get := GET (cart_url env (sessionId (app w))) in
  backend (requests_of (log w)) del = Responds resp ->
  backend (requests_of (log w) ++ [del])%list get
    = Responds (mkResponse (Some data)) ->
  removeFromCart env backend productId w =
    (Normal tt,
     {| app := with_cart (app w) data;
        log := (log w ++ [EFetch del; EFetch get; ESetCart data])%list |}).
Proof.
  intros Hp del get Hd Hg. unfold_ops. rewrite Hp. simpl.
  fold del. rewrite Hd. simpl. rewrite requests_of_app. simpl.
  fold get. rewrite Hg. simpl. norm_log. reflexivity.
Qed.

(** Whatever the backend answers, the first thing each mutation does is to
    send its request. *)
Lemma addToCart_request_first (w : World) (productId quantity : value)
    (pid q : string) :
  to_string productId = Normal pid ->
  to_string (default_one quantity) = Normal q ->
  exists rest,
    log (snd (addToCart env backend productId quantity w)) =
      (log w ++ EFetch (bare "POST" (cart_url env (sessionId (app w))
         ++ "/add?product_id=" ++ pid ++ "&quantity=" ++ q)) :: rest)%list.
Proof.
  intros Hp Hq. unfold_ops. rewrite Hp, Hq. simpl.
  destruct (backend _ _) as [|[[data|]]]; simpl;
    try destruct (get_prop data "cart"); simpl; norm_log; eauto.
Qed.

Lemma updateCartItem_request_first (w : World) (productId quantity : value)
    (pid q : string) :
  to_string productId = Normal pid ->
  to_string quantity = Normal q ->
  exists rest,
    log (snd (updateCartItem env backend productId quantity w)) =
      (log w ++ EFetch (bare "PUT" (cart_url env (sessionId (app w))
         ++ "/update?product_id=" ++ pid ++ "&quantity=" ++ q)) :: rest)%list.
Proof.
  intros Hp Hq. unfold_ops. rewrite Hp, Hq. simpl.
  destruct (backend _ _) as [|[[data|]]]; simpl;
    try destruct (get_prop data "cart"); simpl; norm_log; eauto.
Qed.

Lemma removeFromCart_request_first (w : World) (productId : value)
    (pid : string) :
  to_string productId = Normal pid ->
  exists rest,
    log (snd (removeFromCart env backend productId w)) =
      (log w ++ EFetch (bare "DELETE" (cart_url env (sessionId (app w))
         ++ "/remove/" ++ pid)) :: rest)%list.
Proof.
  intros Hp. unfold_ops. rewrite Hp. simpl.
  destruct (backend _ _) as [|r]; simpl; norm_log; eauto.
  destruct (backend _ _) as [|[[data|]]]; simpl; norm_log; eauto.
Qed.

End RoundTrips.

Section Effects.

Variable env : option string.
Variable backend : Backend.

(** No operation ever rejects: every failure is caught inside it. *)
Lemma run_never_rejects (op : Operation) (w : World) :
  fst (run env backend op w) = Normal tt.
Proof.
  destruct op; unfold_ops; unfold orderData; crunch; reflexivity.
Qed.


Lemma run_requests (op : Operation) (w : World) :
  exists evs,
    log (snd (run env backend op w)) = (log w ++ evs)%list /\
    request_shape env (sessionId (app w)) op (requests_of evs).
Proof.
  destruct op; unfold_ops; unfold orderData, request_shape, own_endpoint, calls;
    crunch; norm_log;
    try (eexists; split; [reflexivity|]; simpl; eauto 9; fail);
    try (exists []; split; [rewrite app_nil_r; reflexivity|]; simpl; eauto;
         fail).
Qed.

End Effects.

(** ** Failures of the network or of the body *)

Section Failures.

Variable env : option string.
Variable backend : Backend.

Lemma fetchProducts_failure (w : World) (e : exn) :
  let req := GET (API_BASE env ++ "/api/products") in
  failure (backend (requests_of (log w)) req) = Some e ->
  fetchProducts env backend w =
    (Normal tt,
     {| app := with_loading (app w) false;
        log := (log w ++ [EFetch req;
                          EConsoleError "Error fetching products:" e;
                          ESetLoading false])%list |}).
Proof.
  intros req H. unfold_ops. simpl. fold req.
  failure_cases H; norm_log; reflexivity.
Qed.

Lemma fetchCart_failure (w : World) (e : exn) :
  let req := GET (cart_url env (sessionId (app w))) in
  failure (backend (requests_of (log w)) req) = Some e ->
  fetchCart env backend w =
    (Normal tt,
     {| app := app w;
        log := (log w ++ [EFetch req;
                          EConsoleError "Error fetching cart:" e])%list |}).
Proof.
  intros req H. unfold_ops. simpl. fold req.
  failure_cases H; norm_log; reflexivity.
Qed.

Lemma addToCart_failure (w : World) (productId quantity : value)
    (pid q : string) (e : exn) :
  to_string productId = Normal pid ->
  to_string (default_one quantity) = Normal q ->
  let req := bare "POST" (cart_url env (sessionId (app w))
               ++ "/add?product_id=" ++ pid ++ "&quantity=" ++ q) in
  failure (backend (requests_of (log w)) req) = Some e ->
  addToCart env backend productId quantity w =
    (Normal tt,
     {| app := app w;
        log := (log w ++ [EFetch req;
                          EConsoleError "Error adding to cart:" e])%list |}).
Proof.
  intros Hp Hq req H. unfold_ops. rewrite Hp, Hq. simpl. fold req.
  failure_cases H; norm_log; reflexivity.
Qed.

Lemma updateCartItem_failure (w : World) (productId quantity : value)
    (pid q : string) (e : exn) :
  to_string productId = Normal pid ->
  to_string quantity = Normal q ->
  let req := bare "PUT" (cart_url env (sessionId (app w))
               ++ "/update?product_id=" ++ pid ++ "&quantity=" ++ q) in
  failure (backend (requests_of (log w)) req) = Some e ->
  updateCartItem env backend productId quantity w =
    (Normal tt,
     {| app := app w;
        log := (log w ++ [EFetch req;
                          EConsoleError "Error updating cart:" e])%list |}).
Proof.
  intros Hp Hq req H. unfold_ops. rewrite Hp, Hq. simpl. fold req.
  failure_cases H; norm_log; reflexivity.
Qed.

(** [removeFromCart] never reads the body of the DELETE response, so only a
    rejected [fetch] makes the DELETE fail. *)
Lemma removeFromCart_failure (w : World) (productId : value) (pid : string) :
  to_string productId = Normal pid ->
  let del := bare "DELETE" (cart_url env (sessionId (app w))
               ++ "/remove/" ++ pid) in
  backend (requests_of (log w)) del = NoResponse ->
  removeFromCart env backend productId w =
    (Normal tt,
     {| app := app w;
        log := (log w ++ [EFetch del;
                 EConsoleError "Error removing from cart:" FetchFailed])%list |}).
Proof.
  intros Hp del H. unfold_ops. rewrite Hp. simpl. fold del. rewrite H.
  norm_log. reflexivity.
Qed.

(** When the DELETE gets through and the cart read that follows fails, it is
    [fetchCart] that reports the failure. *)
Lemma removeFromCart_refetch_failure (w : World) (productId : value)
    (pid : string) (resp : Response) (e : exn) :
  to_string productId = Normal pid ->
  let del := bare "DELETE" (cart_url env (sessionId (app w))
               ++ "/remove/" ++ pid) in
  let get := GET (cart_url env (sessionId (app w))) in
  backend (requests_of (log w)) del = Responds resp ->
  failure (backend (requests_of (log w) ++ [del])%list get) = Some e ->
  removeFromCart env backend productId w =
    (Normal tt,
     {| app := app w;
        log := (log w ++ [EFetch del; EFetch get;
                          EConsoleError "Error fetching cart:" e])%list |}).
Proof.
  intros Hp del get Hd H. unfold_ops. rewrite Hp. simpl. fold del.
  rewrite Hd. simpl. rewrite requests_of_app. simpl. fold get.
  failure_cases H; norm_log; reflexivity.
Qed.

Lemma submitOrder_failure (w : World) (od : value) (e : exn) :
  orderData (app w) = Normal od ->
  let req := order_request env od in
  failure (backend (requests_of (log w)) req) = Some e ->
  submitOrder env backend w =
    (Normal tt,
     {| app := app w;
        log := (log w ++ [EPreventDefault; EFetch req;
                 EConsoleError "Error submitting order:" e;
                 EAlert "Error submitting order. Please try again."])%list |}).
Proof.
  intros Ho req H. unfold_ops. simpl. rewrite Ho. simpl. fold req.
  rewrite requests_of_app. simpl. rewrite app_nil_r.
  failure_cases H; norm_log; reflexivity.
Qed.

Lemma submitOrder_success (w : World) (od data oid : value) (text : string) :
  orderData (app w) = Normal od ->
  let req := order_request env od in
  backend (requests_of (log w)) req = Responds (mkResponse (Some data)) ->
  get_prop data "order_id" = Normal oid ->
  to_string oid = Normal text ->
  submitOrder env backend w =
    (Normal tt,
     {| app := cleared (app w);
        log := (log w ++ [EPreventDefault; EFetch req;
                 EAlert ("Order submitted successfully! Order ID: " ++ text);
                 ESetShowCheckout false; ESetShowCart false;
                 ESetCart empty_cart;
                 ESetCustomerInfo empty_customerInfo])%list |}).
Proof.
  intros Ho req Hr Hid Ht. unfold_ops. simpl. rewrite Ho. simpl. fold req.
  rewrite requests_of_app. simpl. rewrite app_nil_r.
  rewrite Hr. simpl. rewrite Hid. simpl. rewrite Ht. norm_log. reflexivity.
Qed.

End Failures.

(** ** Cart mutations *)

(** C1.  Each cart mutation ([addToCart], [updateCartItem],
    [removeFromCart]) first sends its request to the backend: nothing is
    logged before it, in particular no state setter, so the cart is not
    touched before the round trip.  On success the local cart is replaced by
    what the server sent: for add and update the [cart] property of the
    response to the mutation; for remove the body of the response to the
    cart read that follows the DELETE. *)
Theorem C1_mutations_round_trip (env : option string) (backend : Backend)
    (w : World) :
  (forall productId quantity pid q,
     to_string productId = Normal pid ->
     to_string (default_one quantity) = Normal q ->
     let req := bare "POST" (cart_url env (sessionId (app w))
                  ++ "/add?product_id=" ++ pid ++ "&quantity=" ++ q) in
     (exists rest,
        log (snd (addToCart env backend productId quantity w))
          = (log w ++ EFetch req :: rest)%list) /\
     (forall data c,
        backend (requests_of (log w)) req = replies data ->
        get_prop data "cart" = Normal c ->
        addToCart env backend productId quantity w =
          (Normal tt,
           {| app := with_cart (app w) c;
              log := (log w ++ [EFetch req; ESetCart c;
                                EAlert "Item added to cart!"])%list |}))) /\
  (forall productId quantity pid q,
     to_string productId = Normal pid ->
     to_string quantity = Normal q ->
     let req := bare "PUT" (cart_url env (sessionId (app w))
                  ++ "/update?product_id=" ++ pid ++ "&quantity=" ++ q) in
     (exists rest,
        log (snd (updateCartItem env backend productId quantity w))
          = (log w ++ EFetch req :: rest)%list) /\
     (forall data c,
        backend (requests_of (log w)) req = replies data ->
        get_prop data "cart" = Normal c ->
        updateCartItem env backend productId quantity w =
          (Normal tt,
           {| app := with_cart (app w) c;
              log := (log w ++ [EFetch req; ESetCart c])%list |}))) /\
  (forall productId pid,
     to_string productId = Normal pid ->
     let del := bare "DELETE" (cart_url env (sessionId (app w))
                  ++ "/remove/" ++ pid) in
     let get := GET (cart_url env (sessionId (app w))) in
     (exists rest,
        log (snd (removeFromCart env backend productId w))
          = (log w ++ EFetch del :: rest)%list) /\
     (forall resp data,
        backend (requests_of (log w)) del = Responds resp ->
        backend (requests_of (log w) ++ [del])%list get = replies data ->
        removeFromCart env backend productId w =
          (Normal tt,
           {| app := with_cart (app w) data;
              log := (log w ++ [EFetch del; EFetch get;
                                ESetCart data])%list |}))).
Proof.
  repeat split; intros; unfold replies in *.
  - apply addToCart_request_first; assumption.
  - eapply addToCart_round_trip; eassumption.
  - apply updateCartItem_request_first; assumption.
  - eapply updateCartItem_round_trip; eassumption.
  - apply removeFromCart_request_first; assumption.
  - eapply removeFromCart_round_trip; eassumption.
Qed.

Lemma C1_witness :
  updateCartItem None (always (replies (VObj [("cart", sample_cart)])))
    (VStr "p1") (VNum 3) (world0 sample_state) =
  (Normal tt,
   {| app := sample_state;
      log := [EFetch (bare "PUT"
                "http://localhost:8001/api/cart/k3x9q/update?product_id=p1&quantity=3");
              ESetCart sample_cart] |}).
Proof.
  destruct (C1_mutations_round_trip None
              (always (replies (VObj [("cart", sample_cart)])))
              (world0 sample_state)) as [_ [Hupdate _]].
  destruct (Hupdate (VStr "p1") (VNum 3) "p1" "3" eq_refl eq_refl)
    as [_ Hok].
  exact (Hok (VObj [("cart", sample_cart)]) sample_cart eq_refl eq_refl).
Defined.

(** ** Failure handling *)

(** C2.  No operation ever rejects, whatever happens inside it.  When the
    [fetch] of an operation rejects, or the body it reads is not JSON, the
    operation makes that one request, reports the exception with
    [console.error] ([submitOrder] also shows an alert), and stops: no second
    attempt, and no change of state other than [fetchProducts] clearing
    [loading] in its [finally] block.  [removeFromCart] does not read the body
    of the DELETE response; a failure of the cart read that follows is
    reported by [fetchCart]. *)
Theorem C2_failures_are_caught_and_logged (env : option string)
    (backend : Backend) (w : World) :
  (forall op, fst (run env backend op w) = Normal tt) /\
  (forall e,
     let req := GET (API_BASE env ++ "/api/products") in
     failure (backend (requests_of (log w)) req) = Some e ->
     run env backend OpFetchProducts w =
       (Normal tt,
        {| app := with_loading (app w) false;
           log := (log w ++ [EFetch req;
                    EConsoleError "Error fetching products:" e;
                    ESetLoading false])%list |})) /\
  (forall e,
     let req := GET (cart_url env (sessionId (app w))) in
     failure (backend (requests_of (log w)) req) = Some e ->
     run env backend OpFetchCart w =
       (Normal tt,
        {| app := app w;
           log := (log w ++ [EFetch req;
                    EConsoleError "Error fetching cart:" e])%list |})) /\
  (forall productId quantity pid q e,
     to_string productId = Normal pid ->
     to_string (default_one quantity) = Normal q ->
     let req := bare "POST" (cart_url env (sessionId (app w))
                  ++ "/add?product_id=" ++ pid ++ "&quantity=" ++ q) in
     failure (backend (requests_of (log w)) req) = Some e ->
     run env backend (OpAddToCart productId quantity) w =
       (Normal tt,
        {| app := app w;
           log := (log w ++ [EFetch req;
                    EConsoleError "Error adding to cart:" e])%list |})) /\
  (forall productId quantity pid q e,
     to_string productId = Normal pid ->
     to_string quantity = Normal q ->
     let req := bare "PUT" (cart_url env (sessionId (app w))
                  ++ "/update?product_id=" ++ pid ++ "&quantity=" ++ q) in
     failure (backend (requests_of (log w)) req) = Some e ->
     run env backend (OpUpdateCartItem productId quantity) w =
       (Normal tt,
        {| app := app w;
           log := (log w ++ [EFetch req;
                    EConsoleError "Error updating cart:" e])%list |})) /\
  (forall productId pid,
     to_string productId = Normal pid ->
     let del := bare "DELETE" (cart_url env (sessionId (app w))
                  ++ "/remove/" ++ pid) in
     let get := GET (cart_url env (sessionId (app w))) in
     (backend (requests_of (log w)) del = NoResponse ->
      run env backend (OpRemoveFromCart productId) w =
        (Normal tt,
         {| app := app w;
            log := (log w ++ [EFetch del;
                     EConsoleError "Error removing from cart:"
                       FetchFailed])%list |})) /\
     (forall resp e,
        backend (requests_of (log w)) del = Responds resp ->
        failure (backend (requests_of (log w) ++ [del])%list get) = Some e ->
        run env backend (OpRemoveFromCart productId) w =
          (Normal tt,
           {| app := app w;
              log := (log w ++ [EFetch del; EFetch get;
                       EConsoleError "Error fetching cart:" e])%list |}))) /\
  (forall od e,
     orderData (app w) = Normal od ->
     let req := order_request env od in
     failure (backend (requests_of (log w)) req) = Some e ->
     run env backend OpSubmitOrder w =
       (Normal tt,
        {| app := app w;
           log := (log w ++ [EPreventDefault; EFetch req;
                    EConsoleError "Error submitting order:" e;
                    EAlert "Error submitting order. Please try again."])%list
        |})).
Proof.
  split; [intros op; apply run_never_rejects|].
  repeat split; intros; simpl run.
  - apply fetchProducts_failure; assumption.
  - apply fetchCart_failure; assumption.
  - apply addToCart_failure; assumption.
  - apply updateCartItem_failure; assumption.
  - apply removeFromCart_failure; assumption.
  - eapply removeFromCart_refetch_failure; eassumption.
  - apply submitOrder_failure; assumption.
Qed.

Lemma C2_witness :
  run None (always garbled) (OpAddToCart (VStr "p1") VUndef)
    (world0 sample_state) =
  (Normal tt,
   {| app := sample_state;
      log := [EFetch (bare "POST"
                "http://localhost:8001/api/cart/k3x9q/add?product_id=p1&quantity=1");
              EConsoleError "Error adding to cart:" JsonParseFailed] |}).
Proof.
  destruct (C2_failures_are_caught_and_logged None (always garbled)
              (world0 sample_state)) as [_ [_ [_ [Hadd _]]]].
  exact (Hadd (VStr "p1") VUndef "p1" "1" JsonParseFailed
           eq_refl eq_refl eq_refl).
Defined.

(** ** Order submission *)

(** C4.  When the POST of [submitOrder] fails (the [fetch] rejects or the
    body is not JSON), the component state after the operation is the state
    before it: cart, customer form and the two modal flags included.  What
    the operation did is the request, one [console.error] and the error
    alert. *)
Theorem C4_failed_order_changes_nothing (env : option string)
    (backend : Backend) (w : World) (od : value) (e : exn) :
  orderData (app w) = Normal od ->
  failure (backend (requests_of (log w)) (order_request env od)) = Some e ->
  let w' := snd (submitOrder env backend w) in
  app w' = app w /\
  log w' = (log w ++ [EPreventDefault; EFetch (order_request env od);
              EConsoleError "Error submitting order:" e;
              EAlert "Error submitting order. Please try again."])%list.
Proof.
  intros Ho Hf w'. subst w'.
  rewrite (submitOrder_failure env backend w od e Ho Hf). simpl. auto.
Qed.

Lemma C4_witness :
  let w' := snd (submitOrder None (always NoResponse) (world0 sample_state)) in
  app w' = sample_state /\
  log w' =
    [EPreventDefault;
     EFetch (order_request None
               (order_record "k3x9q" (VArr [sample_item]) (VNum 20)
                  (customerInfo sample_state)));
     EConsoleError "Error submitting order:" FetchFailed;
     EAlert "Error submitting order. Please try again."].
Proof.
  exact (C4_failed_order_changes_nothing None (always NoResponse)
           (world0 sample_state)
           (order_record "k3x9q" (VArr [sample_item]) (VNum 20)
              (customerInfo sample_state))
           FetchFailed eq_refl eq_refl).
Defined.

(** C5, as stated, fails: the POST returns, its body parses (to [null]),
    and yet the cart is not emptied and the checkout form stays open,
    because building the success message reads [data.order_id] and throws. *)
Lemma C5_counterexample :
  let backend := always (replies VNull) in
  let w' := snd (submitOrder None backend (world0 sample_state)) in
  (exists od,
     orderData sample_state = Normal od /\
     backend [] (order_request None od) = replies VNull) /\
  cart (app w') = sample_cart /\
  cart (app w') <> empty_cart /\
  customerInfo (app w') <> empty_customerInfo /\
  showCheckout (app w') = true /\
  showCart (app w') = true.
Proof.
  simpl. repeat split; try discriminate.
  eexists; split; reflexivity.
Qed.

(** C5, amended.  When the POST returns, its body parses to [data], and the
    success message can be built from it ([data] is not null and
    [data.order_id] converts to a string), then afterwards the cart is
    [{ items: [], total: 0 }], every field of the customer form is the empty
    string, both modals are closed, and the POST is the only request made. *)
Theorem C5_successful_order_resets (env : option string) (backend : Backend)
    (w : World) (od data oid : value) (text : string) :
  orderData (app w) = Normal od ->
  backend (requests_of (log w)) (order_request env od) = replies data ->
  get_prop data "order_id" = Normal oid ->
  to_string oid = Normal text ->
  let w' := snd (submitOrder env backend w) in
  cart (app w') = empty_cart /\
  customerInfo (app w') = mkCustomerInfo EmptyString EmptyString
                            EmptyString EmptyString /\
  showCheckout (app w') = false /\
  showCart (app w') = false /\
  requests_of (log w') = (requests_of (log w) ++ [order_request env od])%list.
Proof.
  intros Ho Hr Hid Ht w'. subst w'. unfold replies in Hr.
  rewrite (submitOrder_success env backend w od data oid text Ho Hr Hid Ht).
  simpl. repeat split. rewrite requests_of_app. reflexivity.
Qed.

Lemma C5_witness :
  let w' := snd (submitOrder None
                   (always (replies (VObj [("order_id", VNum 77)])))
                   (world0 sample_state)) in
  cart (app w') = empty_cart /\
  customerInfo (app w') = mkCustomerInfo EmptyString EmptyString
                            EmptyString EmptyString /\
  showCheckout (app w') = false /\
  showCart (app w') = false /\
  requests_of (log w') =
    [order_request None
       (order_record "k3x9q" (VArr [sample_item]) (VNum 20)
          (customerInfo sample_state))].
Proof.
  exact (C5_successful_order_resets None
           (always (replies (VObj [("order_id", VNum 77)])))
           (world0 sample_state)
           (order_record "k3x9q" (VArr [sample_item]) (VNum 20)
              (customerInfo sample_state))
           (VObj [("order_id", VNum 77)]) (VNum 77) "77"
           eq_refl eq_refl eq_refl eq_refl).
Defined.

(** ** What the page shows of the cart *)

Lemma fold_left_quantity (l : list CartItem) (acc : Z) :
  fold_left (fun sum item => (sum + quantity item)%Z) l acc =
  (acc + fold_right Z.add 0 (map quantity l))%Z.
Proof.
  revert acc. induction l as [|i l IH]; intros acc; simpl.
  - lia.
  - rewrite IH. lia.
Qed.






(** ** The quantity buttons *)



(** ** The order record *)

Lemma JSON_stringify_defined (v : value) :
  v <> VUndef -> exists s, JSON_stringify v = Some s.
Proof.
  destruct v as [| |[|]| | | |]; intros H; simpl; eauto. now elim H.
Qed.

(** C7.  The one request [submitOrder] can send is the POST to
    [/api/orders] whose body is [JSON.stringify(orderData)], where
    [orderData] has exactly the four properties [session_id], [items],
    [total] and [customer_info]: [items] and [total] are what [cart.items]
    and [cart.total] read at that moment, unchanged, and [customer_info] is
    the form state.  On the wire the body has those same four members, in
    that order, as long as the cart has both properties.  (A cart that is
    null or undefined makes the operation fail before anything is sent.) *)
Theorem C7_order_record (env : option string) (backend : Backend)
    (w : World) :
  let s := app w in
  exists sent,
    requests_of (log (snd (submitOrder env backend w)))
      = (requests_of (log w) ++ sent)%list /\
    ((orderData s = Thrown TypeError /\ sent = []) \/
     (exists its tot,
        get_prop (cart s) "items" = Normal its /\
        get_prop (cart s) "total" = Normal tot /\
        let od := VObj [("session_id", VStr (sessionId s));
                        ("items", its);
                        ("total", tot);
                        ("customer_info", customerInfo_value (customerInfo s))]
        in
        orderData s = Normal od /\
        sent = [{| method := "POST";
                   url := API_BASE env ++ "/api/orders";
                   headers := [("Content-Type", "application/json")];
                   body := JSON_stringify od |}] /\
        (its <> VUndef -> tot <> VUndef ->
         exists si st sc,
           JSON_stringify its = Some si /\
           JSON_stringify tot = Some st /\
           JSON_stringify (customerInfo_value (customerInfo s)) = Some sc /\
           JSON_stringify od =
             Some ("{" ++ sep_by ","
                     [json_quote "session_id" ++ ":"
                        ++ json_quote (sessionId s);
                      json_quote "items" ++ ":" ++ si;
                      json_quote "total" ++ ":" ++ st;
                      json_quote "customer_info" ++ ":" ++ sc]
                   ++ "}")))).
Proof.
  intros s. subst s. unfold_ops. unfold orderData. simpl.
  destruct (get_prop (cart (app w)) "items") as [its|e] eqn:Hi.
  2:{ exists []. rewrite app_nil_r. split.
      - simpl. repeat rewrite requests_of_app. simpl.
        repeat rewrite app_nil_r. reflexivity.
      - left. destruct (cart (app w)); simpl in Hi; try discriminate;
          injection Hi as <-; auto. }
  destruct (get_prop (cart (app w)) "total") as [tot|e] eqn:Ht.
  2:{ destruct (cart (app w)); simpl in Hi, Ht; discriminate. }
  eexists. split.
  - crunch; norm_log; repeat rewrite requests_of_app; simpl; reflexivity.
  - right. exists its, tot. repeat split.
    intros Hits Htot.
    destruct (JSON_stringify_defined its Hits) as [si Hsi].
    destruct (JSON_stringify_defined tot Htot) as [st Hst].
    eexists si, st, _. split; [exact Hsi|]. split; [exact Hst|].
    split; [reflexivity|].
    cbn [JSON_stringify]. rewrite Hsi, Hst. reflexivity.
Qed.

Lemma C7_witness :
  exists sent,
    requests_of (log (snd (submitOrder None (always NoResponse)
                             (world0 sample_state)))) = sent /\
    sent = [order_request None
              (order_record "k3x9q" (VArr [sample_item]) (VNum 20)
                 (customerInfo sample_state))].
Proof.
  destruct (C7_order_record None (always NoResponse) (world0 sample_state))
    as [sent [Hlog [[Hthrown _]|[its [tot [Hi [Ht [_ [Hsent _]]]]]]]]].
  - discriminate Hthrown.
  - exists sent. split; [exact Hlog|].
    injection Hi as <-. injection Ht as <-. exact Hsent.
Defined.

(** ** Endpoints *)

Lemma calls_functional (env : option string) (sid : string)
    (ep1 ep2 : Endpoint) (r : Request) :
  calls env sid ep1 r -> calls env sid ep2 r -> ep1 = ep2.
Proof.
  destruct ep1, ep2; simpl; try reflexivity; intros H1 H2;
    repeat match goal with
           | H : exists _, _ |- _ => destruct H as [? H]
           end;
    subst r; try discriminate H2; exfalso;
    unfold GET, cart_url in H2; injection H2 as H2;
    apply string_app_inv_head in H2; cbv in H2; discriminate H2.
Qed.

(** C8, as stated, fails on both counts.  The six operations call six
    different endpoints, not five: run from one state, each of them sends a
    request that none of the others sends.  And [removeFromCart] contacts
    two endpoints, the DELETE of the line and then the cart read. *)
Lemma C8_counterexample :
  let backend := always (replies (VObj [("cart", sample_cart)])) in
  let sent op := requests_of (log (snd (run None backend op
                                          (world0 sample_state)))) in
  map (fun r => (method r, url r))
    (sent OpFetchProducts ++ sent OpFetchCart
     ++ sent (OpAddToCart (VStr "p1") VUndef)
     ++ sent (OpUpdateCartItem (VStr "p1") (VNum 3))
     ++ sent OpSubmitOrder)%list =
  [("GET", "http://localhost:8001/api/products");
   ("GET", "http://localhost:8001/api/cart/k3x9q");
   ("POST", "http://localhost:8001/api/cart/k3x9q/add?product_id=p1&quantity=1");
   ("PUT", "http://localhost:8001/api/cart/k3x9q/update?product_id=p1&quantity=3");
   ("POST", "http://localhost:8001/api/orders")] /\
  sent (OpRemoveFromCart (VStr "p1")) =
    [bare "DELETE" "http://localhost:8001/api/cart/k3x9q/remove/p1";
     GET "http://localhost:8001/api/cart/k3x9q"] /\
  List.length all_endpoints = 6 /\
  NoDup all_endpoints.
Proof.
  repeat split.
  repeat constructor; simpl; intuition discriminate.
Qed.

(** C8, amended.  The component talks to six endpoints: list products, get
    cart, add, update and remove a cart item, create order.  They are
    pairwise different (no request is a call of two of them) and no request
    goes anywhere else.  One run of an operation other than [removeFromCart]
    sends at most one request, to its own endpoint; one run of
    [removeFromCart] sends its DELETE and, unless the DELETE got no response,
    one cart read after it. *)
Theorem C8_six_endpoints (env : option string) (backend : Backend)
    (op : Operation) (w : World) :
  let sid := sessionId (app w) in
  (List.length all_endpoints = 6 /\ NoDup all_endpoints /\
   forall ep, In ep all_endpoints) /\
  (forall ep1 ep2 r, calls env sid ep1 r -> calls env sid ep2 r -> ep1 = ep2) /\
  exists sent,
    requests_of (log (snd (run env backend op w)))
      = (requests_of (log w) ++ sent)%list /\
    match op with
    | OpRemoveFromCart _ =>
        sent = [] \/
        exists d, calls env sid RemoveCartItem d /\
                  ((sent = [d] /\
                    backend (requests_of (log w)) d = NoResponse) \/
                   (sent = [d; GET (cart_url env sid)] /\
                    calls env sid GetCart (GET (cart_url env sid))))
    | _ =>
        sent = [] \/
        exists r, sent = [r] /\ calls env sid (own_endpoint op) r
    end.
Proof.
  intros sid. split; [|split].
  - split; [reflexivity|]. split.
    + repeat constructor; simpl; intuition discriminate.
    + intros []; simpl; auto 7.
  - apply calls_functional.
  - destruct (run_requests env backend op w) as [evs [Hlog Hshape]].
    exists (requests_of evs). rewrite Hlog, requests_of_app.
    split; [reflexivity|].
    destruct op; try exact Hshape.
    clear Hshape. revert Hlog. subst sid.
    unfold_ops. simpl.
    destruct (to_string productId) as [pid|e]; simpl.
    + match goal with
      | |- context [match ?b ?h ?r with NoResponse => _ | Responds _ => _ end]
        => destruct (b h r) as [|resp] eqn:Hd
      end; simpl.
      * norm_log. intros Hlog. apply app_inv_head in Hlog. subst evs. simpl.
        right. eexists. split; [eexists; reflexivity|]. left. auto.
      * crunch; norm_log; intros Hlog;
          apply app_inv_head in Hlog; subst evs; simpl;
          right; (eexists; split; [eexists; reflexivity|]); right; auto.
    + norm_log. intros Hlog. apply app_inv_head in Hlog. subst evs.
      simpl. auto.
Qed.

(** ** The session identifier *)



Section Tracking.

Variable env : option string.
Variable backend : Backend.
Variable sid : string.










End Tracking.





(** ** Screens *)






(** * Further properties of the component *)

(** ** Loading the catalogue and the cart *)


(** X2.  [fetchCart] takes the whole parsed body as the new cart, whatever
    it is: there is no check of its shape, so a body of [null] makes the cart
    null.  Nothing else in the state changes and one request is sent. *)
Theorem X2_fetchCart_takes_any_body (env : option string) (backend : Backend)
    (w : World) (data : value) :
  backend (requests_of (log w)) (GET (cart_url env (sessionId (app w))))
    = replies data ->
  fetchCart env backend w =
    (Normal tt,
     {| app := with_cart (app w) data;
        log := (log w ++ [EFetch (GET (cart_url env (sessionId (app w))));
                          ESetCart data])%list |}).
Proof.
  intros H. unfold_ops. unfold replies in H. simpl. rewrite H. simpl.
  norm_log. reflexivity.
Qed.

Lemma X2_witness :
  fetchCart None (always (replies VNull)) (world0 sample_state) =
    (Normal tt,
     {| app := with_cart sample_state VNull;
        log := [EFetch (GET (cart_url None "k3x9q")); ESetCart VNull] |}).
Proof.
  exact (X2_fetchCart_takes_any_body None (always (replies VNull))
           (world0 sample_state) VNull eq_refl).
Defined.



(** ** Inputs the operations cannot use *)

(** X4.  When the product id cannot be turned into text for the URL (an
    object carrying its own [toString]), no cart mutation sends anything: the
    exception is logged with [console.error] and the state is unchanged. *)
Theorem X4_unprintable_id_sends_nothing (env : option string)
    (backend : Backend) (w : World) (productId quantity : value) (e : exn) :
  to_string productId = Thrown e ->
  addToCart env backend productId quantity w =
    (Normal tt,
     {| app := app w;
        log := (log w ++ [EConsoleError "Error adding to cart:" e])%list |})
  /\
  updateCartItem env backend productId quantity w =
    (Normal tt,
     {| app := app w;
        log := (log w ++ [EConsoleError "Error updating cart:" e])%list |})
  /\
  removeFromCart env backend productId w =
    (Normal tt,
     {| app := app w;
        log := (log w ++ [EConsoleError "Error removing from cart:" e])%list
     |}).
Proof.
  intros H. unfold_ops. rewrite H. simpl. auto.
Qed.

Lemma X4_witness :
  addToCart None shop unprintable VUndef (world0 sample_state) =
    (Normal tt,
     {| app := sample_state;
        log := [EConsoleError "Error adding to cart:" TypeError] |})
  /\
  updateCartItem None shop unprintable VUndef (world0 sample_state) =
    (Normal tt,
     {| app := sample_state;
        log := [EConsoleError "Error updating cart:" TypeError] |})
  /\
  removeFromCart None shop unprintable (world0 sample_state) =
    (Normal tt,
     {| app := sample_state;
        log := [EConsoleError "Error removing from cart:" TypeError] |}).
Proof.
  exact (X4_unprintable_id_sends_nothing None shop (world0 sample_state)
           unprintable VUndef TypeError eq_refl).
Defined.

Lemma submitOrder_without_cart (env : option string) (backend : Backend)
    (w : World) :
  cart (app w) = VUndef \/ cart (app w) = VNull ->
  submitOrder env backend w =
    (Normal tt,
     {| app := app w;
        log := (log w ++ [EPreventDefault;
                 EConsoleError "Error submitting order:" TypeError;
                 EAlert "Error submitting order. Please try again."])%list |}).
Proof.
  intros H. unfold_ops. unfold orderData. simpl.
  destruct H as [-> | ->]; simpl; norm_log; reflexivity.
Qed.

(** X5.  [submitOrder] on a cart that is null or undefined sends nothing:
    reading [cart.items] throws, the exception is logged, the error alert is
    shown and the state is unchanged. *)
Theorem X5_order_without_cart_sends_nothing (env : option string)
    (backend : Backend) (w : World) :
  cart (app w) = VUndef \/ cart (app w) = VNull ->
  submitOrder env backend w =
    (Normal tt,
     {| app := app w;
        log := (log w ++ [EPreventDefault;
                 EConsoleError "Error submitting order:" TypeError;
                 EAlert "Error submitting order. Please try again."])%list |}).
Proof.
  apply submitOrder_without_cart.
Qed.

Lemma X5_witness :
  submitOrder None shop (world0 (with_cart sample_state VNull)) =
    (Normal tt,
     {| app := with_cart sample_state VNull;
        log := [EPreventDefault;
                EConsoleError "Error submitting order:" TypeError;
                EAlert "Error submitting order. Please try again."] |}).
Proof.
  exact (X5_order_without_cart_sends_nothing None shop
           (world0 (with_cart sample_state VNull)) (or_intror eq_refl)).
Defined.

(** X6.  When the response to an add is parsed but carries no [cart]
    property (an object without it, or a number, string, boolean or array),
    the local cart becomes undefined and the user is still told the item was
    added.  An order submitted from that state sends nothing. *)
Theorem X6_add_without_cart_property (env : option string)
    (backend : Backend) (w : World) (productId quantity data : value)
    (pid q : string) :
  to_string productId = Normal pid ->
  to_string (default_one quantity) = Normal q ->
  let req := bare "POST" (cart_url env (sessionId (app w))
               ++ "/add?product_id=" ++ pid ++ "&quantity=" ++ q) in
  backend (requests_of (log w)) req = replies data ->
  get_prop data "cart" = Normal VUndef ->
  let w1 := snd (addToCart env backend productId quantity w) in
  cart (app w1) = VUndef /\
  log w1 = (log w ++ [EFetch req; ESetCart VUndef;
                      EAlert "Item added to cart!"])%list /\
  requests_of (log (snd (submitOrder env backend w1))) = requests_of (log w1).
Proof.
  intros Hp Hq req Hr Hc w1. subst w1. unfold replies in Hr.
  rewrite (addToCart_round_trip env backend w productId quantity pid q data
             VUndef Hp Hq Hr Hc).
  cbn [snd app log]. split; [reflexivity|]. split; [reflexivity|].
  rewrite submitOrder_without_cart by (left; reflexivity).
  cbn [snd app log]. repeat rewrite requests_of_app. simpl.
  repeat rewrite app_nil_r. reflexivity.
Qed.

Lemma X6_witness :
  let backend := always (replies (VObj [("message", VStr "added")])) in
  let w1 := snd (addToCart None backend (VStr "p1") VUndef
                   (world0 sample_state)) in
  cart (app w1) = VUndef /\
  log w1 =
    [EFetch (bare "POST" (cart_url None "k3x9q"
               ++ "/add?product_id=" ++ "p1" ++ "&quantity=" ++ "1"));
     ESetCart VUndef; EAlert "Item added to cart!"] /\
  requests_of (log (snd (submitOrder None backend w1))) = requests_of (log w1).
Proof.
  exact (X6_add_without_cart_property None
           (always (replies (VObj [("message", VStr "added")])))
           (world0 sample_state) (VStr "p1") VUndef
           (VObj [("message", VStr "added")]) "p1" "1"
           eq_refl eq_refl eq_refl eq_refl).
Defined.

(** ** What the event handlers leave alone *)

Section Catalogue.

Variable env : option string.
Variable backend : Backend.












End Catalogue.





(** X9.  The handlers that open and close the modals, select a product or
    edit the checkout form never contact the backend and never touch the
    cart, the catalogue or the session identifier; they cannot throw. *)
Theorem X9_view_events_stay_local (env : option string) (backend : Backend)
    (ev : UserEvent) (w : World) :
  ui_only ev = true ->
  let w' := snd (handle env backend ev w) in
  fst (handle env backend ev w) = Normal tt /\
  requests_of (log w') = requests_of (log w) /\
  cart (app w') = cart (app w) /\
  products (app w') = products (app w) /\
  sessionId (app w') = sessionId (app w) /\
  loading (app w') = loading (app w).
Proof.
  intros Hev. destruct ev; try discriminate Hev; simpl;
    rewrite requests_of_app; simpl; rewrite app_nil_r;
    repeat split; reflexivity.
Qed.

Lemma X9_witness :
  let w' := snd (handle None shop CartCheckout (world0 sample_state)) in
  fst (handle None shop CartCheckout (world0 sample_state)) = Normal tt /\
  requests_of (log w') = [] /\
  cart (app w') = sample_cart /\
  products (app w') = VArr [sample_product] /\
  sessionId (app w') = "k3x9q" /\
  loading (app w') = false.
Proof.
  exact (X9_view_events_stay_local None shop CartCheckout
           (world0 sample_state) eq_refl).
Defined.

(** ** The checkout form *)

(** X10.  The inputs of the checkout form are independent: after typing into
    one of them, that input shows the new text and every other input shows
    what it showed before; nothing else in the state changes. *)
Theorem X10_typing_changes_one_field (env : option string)
    (backend : Backend) (w : World) (f g : Field) (text : string) :
  let w' := snd (handle env backend (CheckoutInput f text) w) in
  field_value (customerInfo (app w')) g =
    (if field_eqb f g then text else field_value (customerInfo (app w)) g) /\
  app w' = mkAppState (products (app w)) (cart (app w))
             (selectedProduct (app w)) (showCart (app w))
             (showCheckout (app w)) (sessionId (app w)) (loading (app w))
             (customerInfo (app w')).
Proof.
  simpl. split; [|reflexivity]. destruct f, g; reflexivity.
Qed.

(** X11.  What the user types into the four inputs is what the order
    carries: after the four inputs have been filled in, in any state and
    whatever they held before, [orderData] has [customer_info] equal to the
    typed name, email, phone and address, next to the cart's items and total
    and the session identifier; filling in the form sends nothing. *)
Theorem X11_typed_form_reaches_the_order (env : option string)
    (backend : Backend) (w : World) (n e p a : string) (its tot : value) :
  get_prop (cart (app w)) "items" = Normal its ->
  get_prop (cart (app w)) "total" = Normal tot ->
  let w' := play env backend
              [CheckoutInput FName n; CheckoutInput FEmail e;
               CheckoutInput FPhone p; CheckoutInput FAddress a] w in
  orderData (app w') =
    Normal (VObj [("session_id", VStr (sessionId (app w)));
                  ("items", its); ("total", tot);
                  ("customer_info",
                   VObj [("name", VStr n); ("email", VStr e);
                         ("phone", VStr p); ("address", VStr a)])]) /\
  requests_of (log w') = requests_of (log w).
Proof.
  intros Hi Ht w'. subst w'. simpl. unfold orderData. simpl.
  rewrite Hi, Ht. split; [reflexivity|].
  repeat rewrite requests_of_app. simpl. repeat rewrite app_nil_r.
  reflexivity.
Qed.

Lemma X11_witness :
  let w' := play None shop
              [CheckoutInput FName "Bo"; CheckoutInput FEmail "bo@example.org";
               CheckoutInput FPhone "777"; CheckoutInput FAddress "2 Lane"]
              (world0 sample_state) in
  orderData (app w') =
    Normal (VObj [("session_id", VStr "k3x9q");
                  ("items", VArr [sample_item]); ("total", VNum 20);
                  ("customer_info",
                   VObj [("name", VStr "Bo");
                         ("email", VStr "bo@example.org");
                         ("phone", VStr "777");
                         ("address", VStr "2 Lane")])]) /\
  requests_of (log w') = [].
Proof.
  exact (X11_typed_form_reaches_the_order None shop (world0 sample_state)
           "Bo" "bo@example.org" "777" "2 Lane" (VArr [sample_item])
           (VNum 20) eq_refl eq_refl).
Defined.

(** ** The session identifier *)

Lemma substring_from_length (n : nat) (s : string) :
  String.length (substring_from n s) = String.length s - n.
Proof.
  revert s. induction n as [|n IH]; intros s; simpl.
  - lia.
  - destruct s as [|c s]; simpl; [reflexivity|apply IH].
Qed.

Lemma substring_from_split (n : nat) (s : string) :
  exists p, s = p ++ substring_from n s /\
            String.length p = Nat.min n (String.length s).
Proof.
  revert s. induction n as [|n IH]; intros s.
  - exists EmptyString. split; reflexivity.
  - destruct s as [|c s].
    + exists EmptyString. split; reflexivity.
    + destruct (IH s) as [p [Hp Hl]]. exists (String c p). split.
      * change (String c s = String c (p ++ substring_from n s)).
        rewrite <- Hp. reflexivity.
      * simpl. rewrite Hl. reflexivity.
Qed.

Lemma string_length_zero (s : string) : String.length s = 0 -> s = EmptyString.
Proof. destruct s; [reflexivity|discriminate]. Qed.

(** X12.  The session identifier is the random string without its first
    seven characters.  It is therefore empty whenever the random string has
    seven characters or fewer, and then every cart request of the session
    goes to the cart with the empty name. *)
Theorem X12_session_id_may_be_empty (env : option string)
    (random36 : string) :
  let sid := sessionId (initial_state random36) in
  (exists p, random36 = p ++ sid /\
             String.length p = Nat.min 7 (String.length random36)) /\
  String.length sid = String.length random36 - 7 /\
  (sid = EmptyString <-> String.length random36 <= 7) /\
  (String.length random36 <= 7 ->
   cart_url env sid = API_BASE env ++ "/api/cart/").
Proof.
  intros sid. subst sid. unfold initial_state. cbn [sessionId].
  pose proof (substring_from_length 7 random36) as Hlen.
  assert (Hiff : substring_from 7 random36 = EmptyString <->
                 String.length random36 <= 7).
  { split.
    - intros H. rewrite H in Hlen. simpl in Hlen. lia.
    - intros H. apply string_length_zero. lia. }
  split; [exact (substring_from_split 7 random36)|]. split; [exact Hlen|].
  split; [exact Hiff|].
  intros H. apply Hiff in H. unfold cart_url. rewrite H. reflexivity.
Qed.

(** ** The buttons that change the cart *)






(** ** Product cards and cart lines *)

Lemma indexed_firstn (n i : nat) (l : list value) :
  indexed i (firstn n l) = firstn n (indexed i l).
Proof.
  revert i l. induction n as [|n IH]; intros i l; [reflexivity|].
  destruct l as [|x l]; [reflexivity|]. simpl. rewrite IH. reflexivity.
Qed.

Lemma indexed_length (i : nat) (l : list value) :
  List.length (indexed i l) = List.length l.
Proof.
  revert i. induction l as [|x l IH]; intros i; simpl; [reflexivity|].
  rewrite IH. reflexivity.
Qed.

(** X15.  A product whose [features] is an array shows all of them in the
    detail modal and the first three of them, in the same order and with the
    same keys, on its card: a product with three features or fewer shows the
    same list in both places.  A product whose [features] is missing or is
    not an array makes both the card and the modal throw. *)
Theorem X15_card_shows_first_three_features (product : value) :
  (exists l all,
     get_prop product "features" = Normal (VArr l) /\
     modal_features product = Normal all /\
     card_features product = Normal (firstn 3 all) /\
     List.length all = List.length l /\
     List.length (firstn 3 all) = Nat.min 3 (List.length l) /\
     (List.length l <= 3 -> firstn 3 all = all)) \/
  ((forall l, get_prop product "features" <> Normal (VArr l)) /\
   modal_features product = Thrown TypeError /\
   card_features product = Thrown TypeError).
Proof.
  unfold modal_features, card_features, features_of.
  destruct (get_prop product "features") as [v|e] eqn:Hg.
  - destruct v as [| | | | |l|];
      try (right; split; [intros l; discriminate|split; reflexivity]).
    left. exists l, (indexed 0 l). split; [reflexivity|].
    split; [reflexivity|]. split; [rewrite indexed_firstn; reflexivity|].
    split; [apply indexed_length|].
    split; [rewrite length_firstn, indexed_length; reflexivity|].
    intros Hle. apply firstn_all2. rewrite indexed_length. exact Hle.
  - right. split; [intros l; discriminate|].
    destruct product; simpl in Hg; try discriminate Hg;
      injection Hg as <-; split; reflexivity.
Qed.

(** X16.  The product shown on a cart line is the first product of the
    catalogue whose [id] is strictly equal to the line's [product_id].  When
    no product matches, the lookup yields nothing and the line has no name.
    The lookup throws exactly when a null or undefined product comes before
    any match. *)
Theorem X16_cart_line_lookup (ps : list value) (item : CartItem) :
  match find_product ps (product_id item) with
  | Normal (Some p) =>
      exists before after i,
        ps = (before ++ p :: after)%list /\
        get_prop p "id" = Normal i /\
        strict_eq i (product_id item) = true /\
        Forall (no_match (product_id item)) before /\
        line_name ps item = get_prop p "name"
  | Normal None =>
      Forall (no_match (product_id item)) ps /\
      line_name ps item = Normal VUndef
  | Thrown e =>
      exists before q after,
        ps = (before ++ q :: after)%list /\
        (q = VUndef \/ q = VNull) /\ e = TypeError /\
        Forall (no_match (product_id item)) before /\
        line_name ps item = Thrown TypeError
  end.
Proof.
  unfold line_name.
  induction ps as [|q ps IH]; simpl.
  - split; [constructor|reflexivity].
  - destruct (get_prop q "id") as [j|e] eqn:Hj.
    + destruct (strict_eq j (product_id item)) eqn:Hs.
      * exists [], ps, j. simpl. repeat split; auto.
      * assert (Hq : no_match (product_id item) q) by (exists j; auto).
        destruct (find_product ps (product_id item)) as [[p|]|e].
        -- destruct IH as [before [after [i [-> [Hi [He [Hf Hn]]]]]]].
           exists (q :: before), after, i. simpl. repeat split; auto.
        -- destruct IH as [Hf Hn]. split; [constructor; assumption|exact Hn].
        -- destruct IH as [before [r [after [-> [Hr [-> [Hf Hn]]]]]]].
           exists (q :: before), r, after. simpl. repeat split; auto.
    + exists [], q, ps. simpl.
      destruct q; simpl in Hj; try discriminate Hj; injection Hj as <-;
        repeat split; auto.
Qed.

(** X17.  The match between a cart line and a product is strict about
    types: when every product of the catalogue has a string [id], a cart line
    whose [product_id] is a number matches none of them, and the line is
    shown without a name, whatever the digits. *)
Theorem X17_numeric_id_matches_no_string_id (ps : list value)
    (item : CartItem) (n : Z) :
  product_id item = VNum n ->
  Forall (fun p => exists s, get_prop p "id" = Normal (VStr s)) ps ->
  find_product ps (product_id item) = Normal None /\
  line_name ps item = Normal VUndef.
Proof.
  intros Hn Hall. unfold line_name. rewrite Hn.
  assert (H : find_product ps (VNum n) = Normal None).
  { induction Hall as [|p ps [s Hs] _ IH]; simpl; [reflexivity|].
    rewrite Hs. simpl. exact IH. }
  rewrite H. split; reflexivity.
Qed.

Lemma X17_witness :
  let ps := [VObj [("id", VStr "1"); ("name", VStr "Brush")]] in
  let item := mkCartItem (VNum 1) 2 (VNum 10) in
  find_product ps (product_id item) = Normal None /\
  line_name ps item = Normal VUndef.
Proof.
  refine (X17_numeric_id_matches_no_string_id
            [VObj [("id", VStr "1"); ("name", VStr "Brush")]]
            (mkCartItem (VNum 1) 2 (VNum 10)) 1 eq_refl _).
  constructor; [|constructor]. exists "1". reflexivity.
Defined.

(** X18.  The discount corner of a product card.  For a numeric discount
    other than zero the badge reads minus, the number, percent.  A discount
    of zero does not give an empty corner: the bare text 0 is rendered.  The
    corner is empty exactly when the discount is undefined, null, false or
    the empty string. *)
Theorem X18_zero_discount_is_rendered (d : value) :
  (discount_slot d = Some NoOutput <->
   d = VUndef \/ d = VNull \/ d = VBool false \/ d = VStr EmptyString) /\
  (forall n, d = VNum n ->
     discount_slot d =
       Some (if Z.eqb n 0 then BareText "0"
             else DiscountBadge ("-" ++ number_to_string n ++ "%"))).
Proof.
  split.
  - split.
    + unfold discount_slot. destruct d as [| |[|]|n|s|l|ps]; simpl; auto.
      * discriminate.
      * destruct (Z.eqb n 0) eqn:E; simpl; [|discriminate].
        apply Z.eqb_eq in E. subst n. discriminate.
      * destruct s as [|c s]; simpl; [auto 6|discriminate].
      * match goal with
        | |- context [match ?x with Some _ => _ | None => _ end] =>
            destruct x
        end; discriminate.
      * discriminate.
    + intros [->|[->|[->| ->]]]; reflexivity.
  - intros n ->. unfold discount_slot. simpl.
    destruct (Z.eqb n 0) eqn:E; simpl; [|reflexivity].
    apply Z.eqb_eq in E. subst n. reflexivity.
Qed.

(** ** The cart badge *)

Lemma sum_at_least_count (l : list CartItem) :
  Forall (fun i => (1 <= quantity i)%Z) l ->
  (Z.of_nat (List.length l) <= fold_right Z.add 0 (map quantity l))%Z.
Proof.
  induction 1 as [|i l Hi _ IH]; simpl List.length; simpl fold_right.
  - lia.
  - rewrite Nat2Z.inj_succ. simpl map. simpl fold_right. lia.
Qed.

(** X19.  The header badge is absent exactly when the cart has no lines.
    When every line has a quantity of at least one, the number on the badge
    is at least the number of lines shown next to it, and equals it when all
    quantities are one. *)
Theorem X19_badge_counts_units (c : Cart) :
  Forall (fun i => (1 <= quantity i)%Z) (items c) ->
  (cart_badge c = None <-> items c = []) /\
  (forall b, cart_badge c = Some b -> (cart_count c <= b)%Z) /\
  (Forall (fun i => quantity i = 1%Z) (items c) -> items c <> [] ->
   cart_badge c = Some (cart_count c)).
Proof.
  intros Hq. unfold cart_badge, cart_count, quantity_sum.
  rewrite fold_left_quantity. revert Hq.
  destruct (items c) as [|i its] eqn:E; intros Hq.
  - simpl. repeat split; auto; try discriminate. intros _ H. now elim H.
  - assert (Hpos : (Z.of_nat (List.length (i :: its)) >? 0)%Z = true)
      by (apply Z.gtb_lt; simpl List.length; lia).
    rewrite Hpos. split; [split; discriminate|]. split.
    + intros b Hb. injection Hb as <-.
      pose proof (sum_at_least_count _ Hq) as H. simpl in H. simpl. lia.
    + intros Hone _. f_equal. clear Hq Hpos E.
      generalize (i :: its) Hone. clear. intros l Hone.
      induction Hone as [|j l Hj _ IH]; [reflexivity|].
      simpl List.length. rewrite Nat2Z.inj_succ. simpl map.
      simpl fold_right. simpl in IH. lia.
Qed.

Lemma X19_witness :
  let c := mkCart [mkCartItem (VStr "p1") 2 (VNum 2);
                   mkCartItem (VStr "p2") 3 (VNum 1)] 7 in
  (cart_badge c = None <-> items c = []) /\
  (forall b, cart_badge c = Some b -> (cart_count c <= b)%Z) /\
  (Forall (fun i => quantity i = 1%Z) (items c) -> items c <> [] ->
   cart_badge c = Some (cart_count c)).
Proof.
  refine (X19_badge_counts_units
            (mkCart [mkCartItem (VStr "p1") 2 (VNum 2);
                     mkCartItem (VStr "p2") 3 (VNum 1)] 7) _).
  simpl. repeat constructor; simpl; lia.
Defined.

(** ** The base URL *)




